(** * mp4frag: a streaming parser for fragmented MP4

    A shallow embedding of [mp4frag.py], the stream transform that cuts the
    output of ffmpeg ([ftyp moov (moof mdat)+]) into an initialization
    fragment and media segments, keeps a rolling buffer of segments and
    renders an HLS playlist.

    Conventions of the embedding.
    - [bytes] objects are lists of [byte]; Python integers are [Z].
    - An instance attribute that the code creates with an assignment, tests
      with [hasattr] and removes with [del] is a field of type [option _]:
      [None] is "the attribute does not exist".  Reading or deleting an
      attribute that does not exist raises [AttributeError].
    - The methods run in a state-and-exception monad [M] over the instance.
    - [time.time()] is an oracle: the [n]-th reading of the clock, already
      converted by [int(round(time.time() * 1000))], is [clock n].
    - The quotient [(currentTime - self._timestamp)/1000] is a Python float; it
      is kept as the exact rational it denotes, which the float represents
      up to the usual rounding ([k/1000] for the small [k] at hand).
    - [print] appends a line to [stdout]; [self._pipe.send_bytes] appends
      to [sent]. *)

From Stdlib Require Import ZArith QArith Strings.Byte.
From stdpp Require Import gmap strings list pretty.

Open Scope Z_scope.

Abbreviation bytes := (list byte).

#[global] Instance byte_eq_decision : EqDecision byte := Byte.byte_eq_dec.

(** ** Python primitives used by the module *)

Module Py.

Definition len {A} (l : list A) : Z := Z.of_nat (length l).

(** Normalisation of a slice bound against a sequence of length [n]:
    a negative bound counts from the end, and bounds are clamped. *)
Definition norm (n i : Z) : Z :=
  if i <? 0 then Z.max (n + i) 0 else Z.min i n.

(** [l[i:j]] *)
Definition slice {A} (l : list A) (i j : Z) : list A :=
  let a := norm (len l) i in
  let b := norm (len l) j in
  take (Z.to_nat (b - a)) (drop (Z.to_nat a) l).

(** [l[:j]] *)
Definition slice_to {A} (l : list A) (j : Z) : list A := slice l 0 j.

(** [l[i:]] *)
Definition slice_from {A} (l : list A) (i : Z) : list A := slice l i (len l).

Fixpoint startswith (l sub : bytes) : bool :=
  match sub, l with
  | [], _ => true
  | _ :: _, [] => false
  | x :: sub', y :: l' => Byte.eqb x y && startswith l' sub'
  end.

Fixpoint find_from (l sub : bytes) (i : Z) : Z :=
  if startswith l sub then i
  else match l with
       | [] => -1
       | _ :: l' => find_from l' sub (i + 1)
       end.

(** [l.find(sub)]: the lowest index at which [sub] occurs, or [-1]. *)
Definition find (l sub : bytes) : Z := find_from l sub 0.

(** [int.from_bytes(data, byteorder='big', signed=False)] *)
Definition int_from_bytes_big (data : bytes) : Z :=
  fold_left (fun acc b => acc * 256 + Z.of_N (Byte.to_N b)) data 0.

(** One hexadecimal digit in upper case: ["0"].. ["9"] are the codes 48..57
    and ["A"].. ["F"] the codes 65..70. *)
Definition hex_digit_upper (d : N) : Ascii.ascii :=
  Ascii.ascii_of_N (if (d <? 10)%N then 48 + d else 55 + d)%N.

(** [data.hex().upper()] *)
Fixpoint hex_upper (data : bytes) : string :=
  match data with
  | [] => EmptyString
  | b :: data' =>
      let n := Byte.to_N b in
      String (hex_digit_upper (n / 16)%N)
        (String (hex_digit_upper (n mod 16)%N) (hex_upper data'))
  end.

(** ['%d' % z] for an integer. *)
Definition fmt_d (z : Z) : string := pretty z.

(** ['%d' % q] for a float: truncation towards zero. *)
Definition fmt_d_float (q : Q) : string :=
  pretty (Z.quot (Qnum q) (Zpos (Qden q))).

(** [round(q)]: to the nearest integer, ties to the even one. *)
Definition round (q : Q) : Z :=
  let d := Zpos (Qden q) in
  let f := Qnum q / d in
  let r2 := 2 * (Qnum q mod d) in
  if r2 <? d then f
  else if d <? r2 then f + 1
  else if Z.even f then f else f + 1.

(** [max(q, 1)]: the first argument unless the second is greater. *)
Definition max_1 (q : Q) : Q := if Qlt_le_dec q 1 then 1%Q else q.

Definition nl : string := String (Ascii.ascii_of_nat 10) EmptyString.
Definition dquote : string := String (Ascii.ascii_of_nat 34) EmptyString.

End Py.

(** ** Values, exceptions, outcomes *)

(** The Python objects that cross the interface of the class: option
    values handed to the constructor and results of the accessors.
    [VMethod name] is the bound method [self.name]. *)
Inductive value :=
| VNone
| VBool (b : bool)
| VInt (z : Z)
| VStr (s : string)
| VBytes (b : bytes)
| VMethod (name : string).

#[global] Instance value_eq_decision : EqDecision value.
Proof. solve_decision. Defined.

Inductive exn :=
| AttributeError (obj attr : string)
| KeyError (key : string)
| IndexError
| RecursionError.

Inductive outcome (A : Type) :=
| Ok (a : A)
| Raise (e : exn).
Arguments Ok {A} a.
Arguments Raise {A} e.

(** ** The instance *)

(** [self._parseChunk]: the bound method that receives the next chunk. *)
Inductive Handler := FindFtyp | FindMoov | FindMoof | FindMdat | MoofHunt.

(** One element of [self._hlsList]: the dict literal built by [_setSegment],
    with its four keys.  The key ['segment'] holds [self._sequence]. *)
Record HlsEntry := {
  e_sequence : Z;
  e_name : string;
  e_segment : Z;
  e_duration : Q
}.

(** The attributes that [__init__] creates when ['hlsBase'] is a string.
    They are created together and never deleted, so [hasattr(self,
    '_hlsList')] and [hasattr(self, '_hlsListInit')] hold together. *)
Record Hls := {
  _hlsListSize : Z;
  _hlsList : list HlsEntry;
  _hlsBase : string;
  _sequence : Z;
  _hlsListInit : bool
}.

(** The attributes that [__init__] creates when ['bufferListSize'] is a key. *)
Record Buf := {
  _bufferListSize : Z;
  _bufferList : list bytes
}.

(** The attributes of the box parser. *)
Record Parser := {
  _parseChunk : Handler;
  _ftypLength : option Z;
  _ftyp : option bytes;
  _moofLength : option Z;
  _moof : option bytes;
  _moofBuffer : option (list bytes);
  _moofBufferSize : option Z;
  _mdatLength : option Z;
  _mdatBuffer : option (list bytes);
  _mdatBufferSize : option Z;
  _moofHunts : option Z;
  _moofHuntsLimit : option Z
}.

(** The attributes behind the read-only properties. *)
Record Outputs := {
  _initialization : option bytes;
  _mime : option string;
  _timestamp : option Z;
  _m3u8 : option string;
  _segment : option bytes;
  _duration : option Q
}.

(** What the instance does to the outside: lines printed, segments sent
    on [self._pipe], and the number of clock readings taken so far. *)
Record World := {
  stdout : list string;
  sent : list bytes;
  ticks : nat
}.

Record State := {
  hls : option Hls;
  buf : option Buf;
  parser : Parser;
  out : Outputs;
  world : World
}.

(** *** Field updates *)

Definition with_hls (h : option Hls) (s : State) : State :=
  {| hls := h; buf := buf s; parser := parser s; out := out s; world := world s |}.
Definition with_buf (b : option Buf) (s : State) : State :=
  {| hls := hls s; buf := b; parser := parser s; out := out s; world := world s |}.
Definition with_parser (p : Parser) (s : State) : State :=
  {| hls := hls s; buf := buf s; parser := p; out := out s; world := world s |}.
Definition with_out (o : Outputs) (s : State) : State :=
  {| hls := hls s; buf := buf s; parser := parser s; out := o; world := world s |}.
Definition with_world (w : World) (s : State) : State :=
  {| hls := hls s; buf := buf s; parser := parser s; out := out s; world := w |}.

Definition set_parseChunk (v : Handler) (p : Parser) : Parser :=
  {| _parseChunk := v; _ftypLength := _ftypLength p; _ftyp := _ftyp p;
     _moofLength := _moofLength p; _moof := _moof p;
     _moofBuffer := _moofBuffer p; _moofBufferSize := _moofBufferSize p;
     _mdatLength := _mdatLength p; _mdatBuffer := _mdatBuffer p;
     _mdatBufferSize := _mdatBufferSize p;
     _moofHunts := _moofHunts p; _moofHuntsLimit := _moofHuntsLimit p |}.
Definition set_ftypLength (v : option Z) (p : Parser) : Parser :=
  {| _parseChunk := _parseChunk p; _ftypLength := v; _ftyp := _ftyp p;
     _moofLength := _moofLength p; _moof := _moof p;
     _moofBuffer := _moofBuffer p; _moofBufferSize := _moofBufferSize p;
     _mdatLength := _mdatLength p; _mdatBuffer := _mdatBuffer p;
     _mdatBufferSize := _mdatBufferSize p;
     _moofHunts := _moofHunts p; _moofHuntsLimit := _moofHuntsLimit p |}.
Definition set_ftyp (v : option bytes) (p : Parser) : Parser :=
  {| _parseChunk := _parseChunk p; _ftypLength := _ftypLength p; _ftyp := v;
     _moofLength := _moofLength p; _moof := _moof p;
     _moofBuffer := _moofBuffer p; _moofBufferSize := _moofBufferSize p;
     _mdatLength := _mdatLength p; _mdatBuffer := _mdatBuffer p;
     _mdatBufferSize := _mdatBufferSize p;
     _moofHunts := _moofHunts p; _moofHuntsLimit := _moofHuntsLimit p |}.
Definition set_moofLength (v : option Z) (p : Parser) : Parser :=
  {| _parseChunk := _parseChunk p; _ftypLength := _ftypLength p; _ftyp := _ftyp p;
     _moofLength := v; _moof := _moof p;
     _moofBuffer := _moofBuffer p; _moofBufferSize := _moofBufferSize p;
     _mdatLength := _mdatLength p; _mdatBuffer := _mdatBuffer p;
     _mdatBufferSize := _mdatBufferSize p;
     _moofHunts := _moofHunts p; _moofHuntsLimit := _moofHuntsLimit p |}.
Definition set_moof (v : option bytes) (p : Parser) : Parser :=
  {| _parseChunk := _parseChunk p; _ftypLength := _ftypLength p; _ftyp := _ftyp p;
     _moofLength := _moofLength p; _moof := v;
     _moofBuffer := _moofBuffer p; _moofBufferSize := _moofBufferSize p;
     _mdatLength := _mdatLength p; _mdatBuffer := _mdatBuffer p;
     _mdatBufferSize := _mdatBufferSize p;
     _moofHunts := _moofHunts p; _moofHuntsLimit := _moofHuntsLimit p |}.
Definition set_moofBuffer (v : option (list bytes)) (p : Parser) : Parser :=
  {| _parseChunk := _parseChunk p; _ftypLength := _ftypLength p; _ftyp := _ftyp p;
     _moofLength := _moofLength p; _moof := _moof p;
     _moofBuffer := v; _moofBufferSize := _moofBufferSize p;
     _mdatLength := _mdatLength p; _mdatBuffer := _mdatBuffer p;
     _mdatBufferSize := _mdatBufferSize p;
     _moofHunts := _moofHunts p; _moofHuntsLimit := _moofHuntsLimit p |}.
Definition set_moofBufferSize (v : option Z) (p : Parser) : Parser :=
  {| _parseChunk := _parseChunk p; _ftypLength := _ftypLength p; _ftyp := _ftyp p;
     _moofLength := _moofLength p; _moof := _moof p;
     _moofBuffer := _moofBuffer p; _moofBufferSize := v;
     _mdatLength := _mdatLength p; _mdatBuffer := _mdatBuffer p;
     _mdatBufferSize := _mdatBufferSize p;
     _moofHunts := _moofHunts p; _moofHuntsLimit := _moofHuntsLimit p |}.
Definition set_mdatLength (v : option Z) (p : Parser) : Parser :=
  {| _parseChunk := _parseChunk p; _ftypLength := _ftypLength p; _ftyp := _ftyp p;
     _moofLength := _moofLength p; _moof := _moof p;
     _moofBuffer := _moofBuffer p; _moofBufferSize := _moofBufferSize p;
     _mdatLength := v; _mdatBuffer := _mdatBuffer p;
     _mdatBufferSize := _mdatBufferSize p;
     _moofHunts := _moofHunts p; _moofHuntsLimit := _moofHuntsLimit p |}.
Definition set_mdatBuffer (v : option (list bytes)) (p : Parser) : Parser :=
  {| _parseChunk := _parseChunk p; _ftypLength := _ftypLength p; _ftyp := _ftyp p;
     _moofLength := _moofLength p; _moof := _moof p;
     _moofBuffer := _moofBuffer p; _moofBufferSize := _moofBufferSize p;
     _mdatLength := _mdatLength p; _mdatBuffer := v;
     _mdatBufferSize := _mdatBufferSize p;
     _moofHunts := _moofHunts p; _moofHuntsLimit := _moofHuntsLimit p |}.
Definition set_mdatBufferSize (v : option Z) (p : Parser) : Parser :=
  {| _parseChunk := _parseChunk p; _ftypLength := _ftypLength p; _ftyp := _ftyp p;
     _moofLength := _moofLength p; _moof := _moof p;
     _moofBuffer := _moofBuffer p; _moofBufferSize := _moofBufferSize p;
     _mdatLength := _mdatLength p; _mdatBuffer := _mdatBuffer p;
     _mdatBufferSize := v;
     _moofHunts := _moofHunts p; _moofHuntsLimit := _moofHuntsLimit p |}.
Definition set_moofHunts (v : option Z) (p : Parser) : Parser :=
  {| _parseChunk := _parseChunk p; _ftypLength := _ftypLength p; _ftyp := _ftyp p;
     _moofLength := _moofLength p; _moof := _moof p;
     _moofBuffer := _moofBuffer p; _moofBufferSize := _moofBufferSize p;
     _mdatLength := _mdatLength p; _mdatBuffer := _mdatBuffer p;
     _mdatBufferSize := _mdatBufferSize p;
     _moofHunts := v; _moofHuntsLimit := _moofHuntsLimit p |}.
Definition set_moofHuntsLimit (v : option Z) (p : Parser) : Parser :=
  {| _parseChunk := _parseChunk p; _ftypLength := _ftypLength p; _ftyp := _ftyp p;
     _moofLength := _moofLength p; _moof := _moof p;
     _moofBuffer := _moofBuffer p; _moofBufferSize := _moofBufferSize p;
     _mdatLength := _mdatLength p; _mdatBuffer := _mdatBuffer p;
     _mdatBufferSize := _mdatBufferSize p;
     _moofHunts := _moofHunts p; _moofHuntsLimit := v |}.

Definition set_initialization (v : option bytes) (o : Outputs) : Outputs :=
  {| _initialization := v; _mime := _mime o; _timestamp := _timestamp o;
     _m3u8 := _m3u8 o; _segment := _segment o; _duration := _duration o |}.
Definition set_mime (v : option string) (o : Outputs) : Outputs :=
  {| _initialization := _initialization o; _mime := v; _timestamp := _timestamp o;
     _m3u8 := _m3u8 o; _segment := _segment o; _duration := _duration o |}.
Definition set_timestamp (v : option Z) (o : Outputs) : Outputs :=
  {| _initialization := _initialization o; _mime := _mime o; _timestamp := v;
     _m3u8 := _m3u8 o; _segment := _segment o; _duration := _duration o |}.
Definition set_m3u8 (v : option string) (o : Outputs) : Outputs :=
  {| _initialization := _initialization o; _mime := _mime o;
     _timestamp := _timestamp o;
     _m3u8 := v; _segment := _segment o; _duration := _duration o |}.
Definition set_segment (v : option bytes) (o : Outputs) : Outputs :=
  {| _initialization := _initialization o; _mime := _mime o;
     _timestamp := _timestamp o;
     _m3u8 := _m3u8 o; _segment := v; _duration := _duration o |}.
Definition set_duration (v : option Q) (o : Outputs) : Outputs :=
  {| _initialization := _initialization o; _mime := _mime o;
     _timestamp := _timestamp o;
     _m3u8 := _m3u8 o; _segment := _segment o; _duration := v |}.

Definition set_hlsList (v : list HlsEntry) (h : Hls) : Hls :=
  {| _hlsListSize := _hlsListSize h; _hlsList := v; _hlsBase := _hlsBase h;
     _sequence := _sequence h; _hlsListInit := _hlsListInit h |}.
Definition set_sequence (v : Z) (h : Hls) : Hls :=
  {| _hlsListSize := _hlsListSize h; _hlsList := _hlsList h;
     _hlsBase := _hlsBase h; _sequence := v; _hlsListInit := _hlsListInit h |}.
Definition set_bufferList (v : list bytes) (b : Buf) : Buf :=
  {| _bufferListSize := _bufferListSize b; _bufferList := v |}.

(** ** The monad of the methods: state of the instance, plus exceptions *)

Definition M (A : Type) : Type := State -> outcome A * State.

#[global] Instance M_ret : MRet M := fun A a s => (Ok a, s).
#[global] Instance M_bind : MBind M := fun A B k m s =>
  match m s with
  | (Ok a, s') => k a s'
  | (Raise e, s') => (Raise e, s')
  end.

Definition raise {A} (e : exn) : M A := fun s => (Raise e, s).
Definition gets {A} (f : State -> A) : M A := fun s => (Ok (f s), s).
Definition modify (f : State -> State) : M unit := fun s => (Ok tt, f s).

(** *** Attributes that come and go

    [rd a] is [self.a], [wr a v] is [self.a = v], [del a] is [del self.a]
    and [has a] is [hasattr(self, 'a')]. *)
Record Attr (A : Type) := {
  a_name : string;
  a_get : State -> option A;
  a_set : option A -> State -> State
}.
Arguments a_name {A} _.
Arguments a_get {A} _ _.
Arguments a_set {A} _ _ _.

Definition rd {A} (a : Attr A) : M A := fun s =>
  match a_get a s with
  | Some v => (Ok v, s)
  | None => (Raise (AttributeError "mp4frag" (a_name a)), s)
  end.
Definition wr {A} (a : Attr A) (v : A) : M unit := modify (a_set a (Some v)).
Definition del {A} (a : Attr A) : M unit := fun s =>
  match a_get a s with
  | Some _ => (Ok tt, a_set a None s)
  | None => (Raise (AttributeError "mp4frag" (a_name a)), s)
  end.
Definition has {A} (a : Attr A) : M bool :=
  gets (fun s => match a_get a s with Some _ => true | None => false end).

Definition parser_attr {A} (name : string) (get : Parser -> option A)
    (set : option A -> Parser -> Parser) : Attr A :=
  {| a_name := name;
     a_get := fun s => get (parser s);
     a_set := fun v s => with_parser (set v (parser s)) s |}.
Definition out_attr {A} (name : string) (get : Outputs -> option A)
    (set : option A -> Outputs -> Outputs) : Attr A :=
  {| a_name := name;
     a_get := fun s => get (out s);
     a_set := fun v s => with_out (set v (out s)) s |}.

Definition ftypLength_ := parser_attr "_ftypLength" _ftypLength set_ftypLength.
Definition ftyp_ := parser_attr "_ftyp" _ftyp set_ftyp.
Definition moofLength_ := parser_attr "_moofLength" _moofLength set_moofLength.
Definition moof_ := parser_attr "_moof" _moof set_moof.
Definition moofBuffer_ := parser_attr "_moofBuffer" _moofBuffer set_moofBuffer.
Definition moofBufferSize_ :=
  parser_attr "_moofBufferSize" _moofBufferSize set_moofBufferSize.
Definition mdatLength_ := parser_attr "_mdatLength" _mdatLength set_mdatLength.
Definition mdatBuffer_ := parser_attr "_mdatBuffer" _mdatBuffer set_mdatBuffer.
Definition mdatBufferSize_ :=
  parser_attr "_mdatBufferSize" _mdatBufferSize set_mdatBufferSize.
Definition moofHunts_ := parser_attr "_moofHunts" _moofHunts set_moofHunts.
Definition moofHuntsLimit_ :=
  parser_attr "_moofHuntsLimit" _moofHuntsLimit set_moofHuntsLimit.

Definition initialization_ :=
  out_attr "_initialization" _initialization set_initialization.
Definition mime_ := out_attr "_mime" _mime set_mime.
Definition timestamp_ := out_attr "_timestamp" _timestamp set_timestamp.
Definition m3u8_ := out_attr "_m3u8" _m3u8 set_m3u8.
Definition segment_ := out_attr "_segment" _segment set_segment.
Definition duration_ := out_attr "_duration" _duration set_duration.

(** [self._parseChunk = h] *)
Definition wr_parseChunk (h : Handler) : M unit :=
  modify (fun s => with_parser (set_parseChunk h (parser s)) s).

(** The HLS attributes, read as a group; [name] is the attribute the
    statement at hand reads first. *)
Definition rd_hls (name : string) : M Hls := fun s =>
  match hls s with
  | Some h => (Ok h, s)
  | None => (Raise (AttributeError "mp4frag" name), s)
  end.
Definition wr_hls (h : Hls) : M unit := modify (with_hls (Some h)).
Definition rd_buf (name : string) : M Buf := fun s =>
  match buf s with
  | Some b => (Ok b, s)
  | None => (Raise (AttributeError "mp4frag" name), s)
  end.
Definition wr_buf (b : Buf) : M unit := modify (with_buf (Some b)).

(** *** Effects on the outside *)

Definition print (line : string) : M unit :=
  modify (fun s =>
    with_world {| stdout := stdout (world s) ++ [line];
                  sent := sent (world s);
                  ticks := ticks (world s) |} s).

(** [self._pipe.send_bytes(b)] *)
Definition send_bytes (b : bytes) : M unit :=
  modify (fun s =>
    with_world {| stdout := stdout (world s);
                  sent := sent (world s) ++ [b];
                  ticks := ticks (world s) |} s).

(** ** The class [mp4frag] *)

Definition _FTYP : bytes := [x66; x74; x79; x70].
Definition _MOOV : bytes := [x6d; x6f; x6f; x76].
Definition _MOOF : bytes := [x6d; x6f; x6f; x66].
Definition _MFRA : bytes := [x6d; x66; x72; x61].
Definition _MDAT : bytes := [x6d; x64; x61; x74].
Definition _MP4A : bytes := [x6d; x70; x34; x61].
Definition _AVCC : bytes := [x61; x76; x63; x43].

(** *** [__init__] *)

(** [isinstance(v, int)], with the integer when it holds ([bool] is a
    subclass of [int]). *)
Definition as_int (v : value) : option Z :=
  match v with
  | VInt z => Some z
  | VBool b => Some (if b then 1 else 0)
  | _ => None
  end.

(** [v == True] *)
Definition eq_True (v : value) : bool :=
  match v with
  | VBool b => b
  | VInt z => z =? 1
  | _ => false
  end.

(** [options[k]] *)
Definition subscript (options : gmap string value) (k : string) : outcome value :=
  match options !! k with
  | Some v => Ok v
  | None => Raise (KeyError k)
  end.

(** The block under [if 'hlsBase' in options and isinstance(.., str)]. *)
Definition init_hls (options : gmap string value) : option Hls :=
  match options !! "hlsBase" with
  | Some (VStr hlsBase) =>
      Some {| _hlsListSize :=
                match options !! "hlsListSize" ≫= as_int with
                | Some n => if n <? 2 then 2 else if n >? 10 then 10 else n
                | None => 4
                end;
              _hlsList := [];
              _hlsBase := hlsBase;
              _sequence := -1;
              _hlsListInit :=
                match options !! "hlsListInit" with
                | Some v => eq_True v
                | None => false
                end |}
  | _ => None
  end.

(** The block under [if 'bufferListSize' in options]: the size is read
    from [options['hlsListSize']]. *)
Definition init_buf (options : gmap string value) : outcome (option Buf) :=
  match options !! "bufferListSize" with
  | Some _ =>
      match subscript options "hlsListSize" with
      | Raise e => Raise e
      | Ok v =>
          Ok (Some {| _bufferListSize :=
                        match as_int v with
                        | Some n =>
                            if n >? 10 then 10 else if n <? 2 then 2 else n
                        | None => 2
                        end;
                      _bufferList := [] |})
      end
  | None => Ok None
  end.

Definition new_parser : Parser :=
  {| _parseChunk := FindFtyp; _ftypLength := None; _ftyp := None;
     _moofLength := None; _moof := None;
     _moofBuffer := None; _moofBufferSize := None;
     _mdatLength := None; _mdatBuffer := None; _mdatBufferSize := None;
     _moofHunts := None; _moofHuntsLimit := None |}.
Definition new_out : Outputs :=
  {| _initialization := None; _mime := None; _timestamp := None;
     _m3u8 := None; _segment := None; _duration := None |}.
Definition new_world : World := {| stdout := []; sent := []; ticks := 0%nat |}.

(** [mp4frag(pipe, options)]; [options] is [None] or a dict. *)
Definition __init__ (options : option (gmap string value)) : outcome State :=
  match options with
  | Some o =>
      if bool_decide (o = ∅) then
        Ok {| hls := None; buf := None; parser := new_parser; out := new_out;
              world := new_world |}
      else
        match init_buf o with
        | Raise e => Raise e
        | Ok b =>
            Ok {| hls := init_hls o; buf := b; parser := new_parser;
                  out := new_out; world := new_world |}
        end
  | None =>
      Ok {| hls := None; buf := None; parser := new_parser; out := new_out;
            world := new_world |}
  end.

(** *** Helpers *)

Definition _int (data : bytes) : Z := Py.int_from_bytes_big data.

(** [res = bytes()] and then [res += i] for each [i] of [li]; the default
    of [leng] is [0]. *)
Definition _bsconcate (li : list bytes) (leng : Z) : bytes :=
  let res := fold_left (fun res i => res ++ i) li [] in
  if (leng <=? 0) || (leng >? Py.len res) then res else Py.slice_to res leng.

(** [while len(l) > size: l.pop(0)]; popping from the empty list raises. *)
Fixpoint evict {A} (size : Z) (l : list A) : outcome (list A) :=
  if Py.len l >? size then
    match l with
    | [] => Raise IndexError
    | _ :: l' => evict size l'
    end
  else Ok l.

(** The names the class statement binds to functions.  [__init__] and the
    handlers never assign an instance attribute of one of these names, so
    [self.name] is the bound method and [hasattr(self, name)] holds. *)
Definition class_methods : list string :=
  ["__init__"; "__del__"; "stop"; "_int"; "pipe"; "run"; "_transform";
   "_bsconcate"; "bufferListConcat"; "bufferConcat"; "getHlsSegment";
   "getHlsNamedSegment"; "_findFtyp"; "_findMoov"; "_findMoof"; "_findMdat";
   "_moofHunt"; "_parseMoov"; "_setSegment"].

(** The attributes of a [dict] object: its methods.  The keys of a dict
    are not attributes. *)
Definition dict_methods : list string :=
  ["clear"; "copy"; "fromkeys"; "get"; "items"; "keys"; "pop"; "popitem";
   "setdefault"; "update"; "values"].

Section Methods.

(** [clock n] is what [int(round(time.time() * 1000))] evaluates to the
    [n]-th time it is evaluated. *)
Variable clock : nat -> Z.

Definition now_ms : M Z := fun s =>
  (Ok (clock (ticks (world s))),
   with_world {| stdout := stdout (world s);
                 sent := sent (world s);
                 ticks := S (ticks (world s)) |} s).

(** *** [_parseMoov] *)

Definition _parseMoov (chunk : bytes) : M unit :=
  print "_parseMoov";;
  wr initialization_ chunk;;
  b ← has initialization_;
  (if b : bool then mret tt else print "not has _initialization");;
  init ← rd initialization_;
  let audioString :=
    if negb (Py.find init _MP4A =? -1) then ", mp4a.40.2" else "" in
  let index := Py.find init _AVCC in
  if index =? -1 then
    print "error: avcC codec info not found"
  else
    let index := index + 5 in
    wr mime_ ("video/mp4; codecs='avc1."
              +:+ Py.hex_upper (Py.slice init index (index + 3))
              +:+ audioString +:+ "'");;
    t ← now_ms;
    wr timestamp_ t;;
    h ← gets hls;
    match h with
    | Some h =>
        let m3u8 := "#EXTM3U" +:+ Py.nl in
        let m3u8 := m3u8 +:+ "#EXT-X-VERSION:7" +:+ Py.nl in
        let m3u8 := m3u8 +:+ "#EXT-X-TARGETDURATION:1" +:+ Py.nl in
        let m3u8 := m3u8 +:+ "#EXT-X-MEDIA-SEQUENCE:0" +:+ Py.nl in
        let m3u8 := m3u8 +:+ "#EXT-X-MAP:URI=" +:+ Py.dquote +:+ "init-"
                         +:+ _hlsBase h +:+ ".mp4" +:+ Py.dquote +:+ Py.nl in
        wr m3u8_ m3u8
    | None => mret tt
    end;;
    print "initialized.".

(** *** [_setSegment] *)

(** The loop [for i in range(0, len(self._hlsList))] over the playlist. *)
Fixpoint m3u8_entries (m3u8 : string) (l : list HlsEntry) : string :=
  match l with
  | [] => m3u8
  | e :: l' =>
      let m3u8 := m3u8 +:+ "#EXTINF:" +:+ Py.fmt_d_float (e_duration e) in
      let m3u8 := m3u8 +:+ e_name e in
      m3u8_entries m3u8 l'
  end.

(** The block under [if hasattr(self, '_hlsList')]. *)
Definition _setSegment_hls : M unit :=
  h ← rd_hls "_sequence";
  wr_hls (set_sequence (_sequence h + 1) h);;
  h ← rd_hls "_hlsList";
  duration ← rd duration_;
  wr_hls (set_hlsList
            (_hlsList h ++
               [{| e_sequence := _sequence h;
                   e_name := _hlsBase h +:+ Py.fmt_d (_sequence h);
                   e_segment := _sequence h;
                   e_duration := duration |}]) h);;
  h ← rd_hls "_hlsList";
  match evict (_hlsListSize h) (_hlsList h) with
  | Raise e => wr_hls (set_hlsList [] h);; raise e
  | Ok l => wr_hls (set_hlsList l h)
  end;;
  let m3u8 := "#EXTM3U" +:+ Py.nl in
  let m3u8 := m3u8 +:+ "#EXT-X-VERSION:7" +:+ Py.nl in
  duration ← rd duration_;
  let m3u8 := m3u8 +:+ "#EXT-X-TARGETDURATION:"
                   +:+ Py.fmt_d (Py.round duration) +:+ Py.nl in
  h ← rd_hls "_hlsList";
  match _hlsList h with
  | [] => raise IndexError
  | e0 :: _ =>
      let m3u8 := m3u8 +:+ "#EXT-X-MEDIA-SEQUENCE:"
                       +:+ Py.fmt_d (e_sequence e0) +:+ Py.nl in
      let m3u8 := m3u8 +:+ "#EXT-X-MAP:URI=" +:+ Py.dquote +:+ "init-"
                       +:+ _hlsBase h +:+ ".mp4" +:+ Py.dquote +:+ Py.nl in
      wr m3u8_ (m3u8_entries m3u8 (_hlsList h))
  end.

(** The block under [if hasattr(self, '_bufferList')]. *)
Definition _setSegment_buffer : M unit :=
  b ← rd_buf "_bufferList";
  segment ← rd segment_;
  wr_buf (set_bufferList (_bufferList b ++ [segment]) b);;
  b ← rd_buf "_bufferList";
  match evict (_bufferListSize b) (_bufferList b) with
  | Raise e => wr_buf (set_bufferList [] b);; raise e
  | Ok l => wr_buf (set_bufferList l b)
  end.

Definition _setSegment (chunk : bytes) : M unit :=
  wr segment_ chunk;;
  currentTime ← now_ms;
  timestamp ← rd timestamp_;
  wr duration_ (Py.max_1 ((currentTime - timestamp) # 1000));;
  wr timestamp_ currentTime;;
  h ← gets hls;
  match h with
  | Some _ => _setSegment_hls
  | None => mret tt
  end;;
  b ← gets buf;
  match b with
  | Some _ => _setSegment_buffer
  | None => mret tt
  end;;
  print "send segment.";;
  segment ← rd segment_;
  send_bytes segment.

(** *** The handlers

    A handler ends either by returning or by the call
    [self._parseChunk(tail)] on the rest of its chunk, always as its last
    statement.  It is embedded as a computation that returns [None] in the
    first case and [Some tail] in the second; [_parseChunk_call] below
    makes the call. *)

Definition _findFtyp (chunk : bytes) : M (option bytes) :=
  print "_findFtyp";;
  let chunkLength := Py.len chunk in
  if (chunkLength <? 8) || negb (Py.find chunk _FTYP =? 4) then
    print "error: ftyp no fount";;
    mret None
  else
    wr ftypLength_ (_int (Py.slice_to chunk 4));;
    ftypLength ← rd ftypLength_;
    if ftypLength <? chunkLength then
      wr ftyp_ (Py.slice_to chunk ftypLength);;
      wr_parseChunk FindMoov;;
      mret (Some (Py.slice_from chunk ftypLength))
    else if ftypLength =? chunkLength then
      wr ftyp_ chunk;;
      wr_parseChunk FindMoov;;
      mret None
    else
      print ("error: ftypLength:" +:+ Py.fmt_d ftypLength
             +:+ " > chunkLength:" +:+ Py.fmt_d chunkLength);;
      mret None.

Definition _findMoov (chunk : bytes) : M (option bytes) :=
  print "_findMoov";;
  let chunkLength := Py.len chunk in
  if (chunkLength <? 8) || negb (Py.find chunk _MOOV =? 4) then
    print "error: moov not found.";;
    mret None
  else
    let moovLength := _int (Py.slice_to chunk 4) in
    if moovLength <? chunkLength then
      ftyp ← rd ftyp_;
      _parseMoov (ftyp ++ chunk);;
      del ftyp_;;
      del ftypLength_;;
      wr_parseChunk FindMoof;;
      mret (Some (Py.slice_from chunk moovLength))
    else if moovLength =? chunkLength then
      ftyp ← rd ftyp_;
      _parseMoov (ftyp ++ chunk);;
      del ftyp_;;
      del ftypLength_;;
      wr_parseChunk FindMoof;;
      mret None
    else
      print ("error: moovLength:" +:+ Py.fmt_d moovLength
             +:+ " > chunkLength:" +:+ Py.fmt_d chunkLength);;
      mret None.

Definition _findMoof (chunk : bytes) : M (option bytes) :=
  print "_findMoof";;
  accumulating ← has moofBuffer_;
  if accumulating : bool then
    moofBuffer ← rd moofBuffer_;
    wr moofBuffer_ (moofBuffer ++ [chunk]);;
    let chunkLength := Py.len chunk in
    moofBufferSize ← rd moofBufferSize_;
    wr moofBufferSize_ (moofBufferSize + chunkLength);;
    moofLength ← rd moofLength_;
    moofBufferSize ← rd moofBufferSize_;
    if moofLength =? moofBufferSize then
      moofBuffer ← rd moofBuffer_;
      wr moof_ (_bsconcate moofBuffer moofLength);;
      del moofBuffer_;;
      del moofBufferSize_;;
      wr_parseChunk FindMdat;;
      mret None
    else if moofLength <? moofBufferSize then
      moofBuffer ← rd moofBuffer_;
      wr moof_ (_bsconcate moofBuffer moofLength);;
      let sliceIndex := chunkLength - (moofBufferSize - moofLength) in
      del moofBuffer_;;
      del moofBufferSize_;;
      wr_parseChunk FindMdat;;
      mret (Some (Py.slice_from chunk sliceIndex))
    else
      mret None
  else
    let chunkLength := Py.len chunk in
    if (chunkLength <? 8) || negb (Py.find chunk _MOOF =? 4) then
      let mfraIndex := Py.find chunk _MFRA in
      if negb (mfraIndex =? -1) then
        mret None
      else
        wr moofHunts_ 0;;
        wr moofHuntsLimit_ 40;;
        wr_parseChunk MoofHunt;;
        mret (Some chunk)
    else
      wr moofLength_ (_int (Py.slice_to chunk 4));;
      moofLength ← rd moofLength_;
      if moofLength =? 0 then
        print "error, Bad data from input stream reports moof length of 0";;
        mret None
      else if moofLength <? chunkLength then
        wr moof_ (Py.slice_to chunk moofLength);;
        wr_parseChunk FindMdat;;
        mret (Some (Py.slice_from chunk moofLength))
      else if moofLength =? chunkLength then
        wr moof_ chunk;;
        wr_parseChunk FindMdat;;
        mret None
      else
        wr moofBuffer_ [chunk];;
        wr moofBufferSize_ chunkLength;;
        mret None.

Definition _findMdat (chunk : bytes) : M (option bytes) :=
  print "_findMdat";;
  accumulating ← has mdatBuffer_;
  if accumulating : bool then
    mdatBuffer ← rd mdatBuffer_;
    wr mdatBuffer_ (mdatBuffer ++ [chunk]);;
    let chunkLength := Py.len chunk in
    mdatBufferSize ← rd mdatBufferSize_;
    wr mdatBufferSize_ (mdatBufferSize + chunkLength);;
    mdatLength ← rd mdatLength_;
    mdatBufferSize ← rd mdatBufferSize_;
    if mdatLength =? mdatBufferSize then
      moof ← rd moof_;
      mdatBuffer ← rd mdatBuffer_;
      moofLength ← rd moofLength_;
      mdatLength ← rd mdatLength_;
      _setSegment (_bsconcate ([moof] ++ mdatBuffer) (moofLength + mdatLength));;
      del moof_;;
      del mdatBuffer_;;
      del mdatBufferSize_;;
      del mdatLength_;;
      del moofLength_;;
      wr_parseChunk FindMoof;;
      mret None
    else if mdatLength <? mdatBufferSize then
      moof ← rd moof_;
      mdatBuffer ← rd mdatBuffer_;
      moofLength ← rd moofLength_;
      mdatLength ← rd mdatLength_;
      _setSegment (_bsconcate ([moof] ++ mdatBuffer) (moofLength + mdatLength));;
      mdatBufferSize ← rd mdatBufferSize_;
      mdatLength ← rd mdatLength_;
      let sliceIndex := chunkLength - (mdatBufferSize - mdatLength) in
      del moof_;;
      del mdatBuffer_;;
      del mdatBufferSize_;;
      del mdatLength_;;
      del moofLength_;;
      wr_parseChunk FindMoof;;
      mret (Some (Py.slice_from chunk sliceIndex))
    else
      mret None
  else
    let chunkLength := Py.len chunk in
    if (chunkLength <? 8) || negb (Py.find chunk _MDAT =? 4) then
      print "error: mdat no found";;
      mret None
    else
      wr mdatLength_ (_int (Py.slice_to chunk 4));;
      mdatLength ← rd mdatLength_;
      if mdatLength >? chunkLength then
        wr mdatBuffer_ [chunk];;
        wr mdatBufferSize_ chunkLength;;
        mret None
      else if mdatLength <? chunkLength then
        moof ← rd moof_;
        moofLength ← rd moofLength_;
        _setSegment (_bsconcate [moof; chunk] (moofLength + chunkLength));;
        del moof_;;
        del moofLength_;;
        del mdatLength_;;
        wr_parseChunk FindMoof;;
        mret None
      else
        moof ← rd moof_;
        moofLength ← rd moofLength_;
        mdatLength ← rd mdatLength_;
        _setSegment (_bsconcate [moof; chunk] (moofLength + mdatLength));;
        mdatLength ← rd mdatLength_;
        let sliceIndex := mdatLength in
        del moof_;;
        del moofLength_;;
        del mdatLength_;;
        wr_parseChunk FindMoof;;
        mret (Some (Py.slice_from chunk sliceIndex)).

Definition _moofHunt (chunk : bytes) : M (option bytes) :=
  print "_moofHunt";;
  moofHunts ← rd moofHunts_;
  moofHuntsLimit ← rd moofHuntsLimit_;
  if moofHunts <? moofHuntsLimit then
    wr moofHunts_ (moofHunts + 1);;
    let index := Py.find chunk _MOOF in
    if (index >? 3) && (Py.len chunk >? index + 3) then
      del moofHunts_;;
      del moofHuntsLimit_;;
      wr_parseChunk FindMoof;;
      mret (Some (Py.slice_from chunk (index - 4)))
    else
      mret None
  else
    moofHunts ← rd moofHunts_;
    print ("error: moof hunt failed afer " +:+ Py.fmt_d moofHunts
           +:+ " attempts.");;
    mret None.

Definition handler (h : Handler) : bytes -> M (option bytes) :=
  match h with
  | FindFtyp => _findFtyp
  | FindMoov => _findMoov
  | FindMoof => _findMoof
  | FindMdat => _findMdat
  | MoofHunt => _moofHunt
  end.

(** [self._parseChunk(chunk)]: the current handler, then the handler it
    installed on the rest of the chunk, and so on.  [depth] is the number
    of nested calls the interpreter still allows. *)
Fixpoint _parseChunk_call (depth : nat) (chunk : bytes) : M unit :=
  match depth with
  | O => raise RecursionError
  | S depth' =>
      h ← gets (fun s => _parseChunk (parser s));
      tail ← handler h chunk;
      match tail with
      | Some tail => _parseChunk_call depth' tail
      | None => mret tt
      end
  end.

(** The default of [sys.getrecursionlimit()]. *)
Definition recursion_limit : nat := 1000.

(** [_transform], on the chunk that [self._rpipe.read()] returned. *)
Definition _transform (chunk : bytes) : M unit :=
  if bool_decide (chunk = []) then mret tt
  else _parseChunk_call recursion_limit chunk.

(** [run], on the chunks that the successive reads return; the loop
    stops at the first exception. *)
Fixpoint run (reads : list bytes) : M unit :=
  match reads with
  | [] => mret tt
  | chunk :: reads' => _transform chunk;; run reads'
  end.

End Methods.

(** ** The read-only properties and the lookups *)

Definition mime (s : State) : option string := _mime (out s).

Definition initialization (s : State) : option bytes := _initialization (out s).

(** [self._setSegment if hasattr(self, '_setSegment') else None]: the
    attribute looked up is the method, not [_segment]. *)
Definition segment (s : State) : value :=
  if bool_decide ("_setSegment" ∈ class_methods) then VMethod "_setSegment"
  else VNone.

Definition timestamp (s : State) : Z :=
  match _timestamp (out s) with
  | Some t => t
  | None => -1
  end.

Definition duration (s : State) : Q :=
  match _duration (out s) with
  | Some d => d
  | None => (-1)%Q
  end.

Definition m3u8 (s : State) : option string := _m3u8 (out s).

Definition sequence (s : State) : outcome Z :=
  match _m3u8 (out s) with
  | Some _ =>
      match hls s with
      | Some h => Ok (_sequence h)
      | None => Raise (AttributeError "mp4frag" "_sequence")
      end
  | None => Ok (-1)
  end.

Definition bufferList (s : State) : option (list bytes) :=
  match buf s with
  | Some b => if Py.len (_bufferList b) >? 0 then Some (_bufferList b) else None
  | None => None
  end.

Definition bufferListConcat (s : State) : option bytes :=
  match buf s with
  | Some b =>
      if Py.len (_bufferList b) >? 0 then Some (_bsconcate (_bufferList b) 0)
      else None
  | None => None
  end.

Definition bufferConcat (s : State) : option bytes :=
  match _initialization (out s), buf s with
  | Some init, Some b =>
      if Py.len (_bufferList b) >? 0
      then Some (_bsconcate ([init] ++ _bufferList b) 0)
      else None
  | _, _ => None
  end.

(** [d.attr] for a dict [d]: only the methods of [dict] are attributes. *)
Definition dict_getattr (d : HlsEntry) (attr : string) : outcome value :=
  if bool_decide (attr ∈ dict_methods) then Ok (VMethod attr)
  else Raise (AttributeError "dict" attr).

(** The loop of [getHlsNamedSegment] over [self._hlsList]. *)
Fixpoint named_segment_loop (l : list HlsEntry) (name : string) : outcome value :=
  match l with
  | [] => Ok VNone
  | d :: l' =>
      match dict_getattr d "name" with
      | Raise e => Raise e
      | Ok n =>
          if bool_decide (n = VStr name) then dict_getattr d "segment"
          else named_segment_loop l' name
      end
  end.

Definition getHlsNamedSegment (s : State) (name : string) : outcome value :=
  match hls s with
  | Some h =>
      if negb (String.eqb name "") && (Py.len (_hlsList h) >? 0)
      then named_segment_loop (_hlsList h) name
      else Ok VNone
  | None => Ok VNone
  end.

Definition getHlsSegment (s : State) (sequence : Z) : outcome value :=
  match hls s with
  | Some h => getHlsNamedSegment s (_hlsBase h +:+ Py.fmt_d sequence +:+ ".m4s")
  | None => Raise (AttributeError "mp4frag" "_hlsBase")
  end.

(** ** Streams used in the examples *)

Module Example.

(** A 16-byte [ftyp] box. *)
Definition ftyp : bytes :=
  [x00; x00; x00; x10] ++ _FTYP ++ [x69; x73; x6f; x6d; x00; x00; x02; x00].

(** A 16-byte [moov] box that holds [avcC] and the profile bytes 42 C0 1E. *)
Definition moov : bytes :=
  [x00; x00; x00; x10] ++ _MOOV ++ _AVCC ++ [x01; x42; xc0; x1e].

(** A 12-byte [moof] box. *)
Definition moof : bytes :=
  [x00; x00; x00; x0c] ++ _MOOF ++ [x01; x02; x03; x04].

(** A 12-byte [mdat] box. *)
Definition mdat : bytes :=
  [x00; x00; x00; x0c] ++ _MDAT ++ [xaa; xbb; xcc; xdd].

(** Box headers whose length field reads zero. *)
Definition ftyp0 : bytes := [x00; x00; x00; x00] ++ _FTYP.
Definition moov0 : bytes := [x00; x00; x00; x00] ++ _MOOV.
Definition mdat0 : bytes := [x00; x00; x00; x00] ++ _MDAT.

(** The clock advances by two seconds at each reading. *)
Definition clock (n : nat) : Z := 1000000 + 2000 * Z.of_nat n.

Definition hls_options : gmap string value :=
  {[ "hlsBase" := VStr "test"; "hlsListSize" := VInt 3 ]}.

Definition buffer_options : gmap string value :=
  {[ "hlsBase" := VStr "test"; "hlsListSize" := VInt 5;
     "bufferListSize" := VInt 3 ]}.

Definition two_segments : Buf :=
  {| _bufferListSize := 2; _bufferList := [moof ++ mdat; moof ++ mdat0] |}.

(** An instance that holds an initialization fragment and two buffered
    segments. *)
Definition buffered : State :=
  {| hls := None;
     buf := Some two_segments;
     parser := set_parseChunk FindMoof new_parser;
     out := set_initialization (Some (ftyp ++ moov)) new_out;
     world := new_world |}.

(** The five segments of the playlist example, one box per read. *)
Definition five_segments : list bytes :=
  [ftyp; moov; moof; mdat; moof; mdat; moof; mdat; moof; mdat; moof; mdat].

(** The instance after construction with [options] and the given reads,
    when nothing raised. *)
Definition after (options : option (gmap string value)) (reads : list bytes)
    : option State :=
  match __init__ options with
  | Ok s0 =>
      match run clock reads s0 with
      | (Ok _, s) => Some s
      | (Raise _, _) => None
      end
  | Raise _ => None
  end.

End Example.

(** ** Properties *)

Import Example.

(** *** Helper lemmas *)

Lemma fold_app_concat (li : list bytes) (acc : bytes) :
  fold_left (fun res i => res ++ i) li acc = acc ++ concat li.
Proof.
  revert acc; induction li as [|x li IH]; intros acc; simpl.
  - by rewrite app_nil_r.
  - by rewrite IH, <- app_assoc.
Qed.

(** With the default [leng = 0], [_bsconcate] is plain concatenation. *)
Lemma _bsconcate_default (li : list bytes) : _bsconcate li 0 = concat li.
Proof. unfold _bsconcate. simpl. apply fold_app_concat. Qed.

Lemma len_nonempty {A} (l : list A) : l ≠ [] -> (Py.len l >? 0) = true.
Proof.
  destruct l as [|x l]; [done|]. intros _. unfold Py.len. simpl length.
  apply Z.gtb_lt. lia.
Qed.

(** *** What the handlers do on the neighbouring paths *)

(** [_findMoof] and a box of length zero: the chunk is reported and
    dropped; the handler, the outputs and the lists stay as they are. *)
Lemma _findMoof_rejects_zero_length (s : State) (chunk : bytes) :
  _moofBuffer (parser s) = None ->
  8 <= Py.len chunk ->
  Py.find chunk _MOOF = 4 ->
  _int (Py.slice_to chunk 4) = 0 ->
  ∃ s', _findMoof chunk s = (Ok None, s')
        ∧ _parseChunk (parser s') = _parseChunk (parser s)
        ∧ out s' = out s ∧ hls s' = hls s ∧ buf s' = buf s
        ∧ sent (world s') = sent (world s)
        ∧ stdout (world s') =
            stdout (world s) ++
              ["_findMoof";
               "error, Bad data from input stream reports moof length of 0"].
Proof.
  intros Hacc Hlen Hfind Hzero.
  eexists. split.
  - unfold _findMoof, has, gets, print, modify, mbind, M_bind, mret, M_ret. cbn.
    rewrite Hacc. cbn.
    rewrite Hfind, Hzero.
    replace (Py.len chunk <? 8) with false by (symmetry; apply Z.ltb_ge; lia).
    cbn. reflexivity.
  - cbn. repeat split. by rewrite <- app_assoc.
Qed.

(** [_findFtyp] and [_findMoov] have no such test: a zero-length [ftyp]
    header installs [_findMoov] with an empty [ftyp], and a zero-length
    [moov] header yields an initialization fragment. *)
Lemma zero_length_ftyp_and_moov_are_accepted :
  (∃ s, after None [ftyp0] = Some s
        ∧ _parseChunk (parser s) = FindMoov
        ∧ _ftyp (parser s) = Some [])
  ∧ (∃ s, after None [ftyp; moov0] = Some s
          ∧ initialization s = Some (ftyp ++ moov0)
          ∧ _parseChunk (parser s) = MoofHunt).
Proof.
  split; eexists; (split; [vm_compute; reflexivity|]); split; reflexivity.
Qed.

(** An [mdat] box that arrives in two chunks, the second of which goes on
    with the next [moof] box: the accumulator path of [_findMdat] cuts the
    segment at [moofLength + mdatLength] and forwards the [moof] box. *)
Lemma accumulated_mdat_is_cut_at_its_length :
  ∃ s,
    after None [ftyp; moov; moof; take 8 mdat; drop 8 mdat ++ moof] = Some s
    ∧ sent (world s) = [moof ++ mdat]
    ∧ _parseChunk (parser s) = FindMdat
    ∧ _moof (parser s) = Some moof.
Proof.
  eexists. split; [vm_compute; reflexivity|]. repeat split.
Qed.

(** An [ftyp] box that ends inside its chunk: [_findFtyp] cuts it at its
    length and forwards the rest, here the [moov] box. *)
Lemma ftyp_is_cut_at_its_length :
  ∃ s,
    after None [ftyp ++ moov] = Some s
    ∧ initialization s = Some (ftyp ++ moov)
    ∧ _parseChunk (parser s) = FindMoof.
Proof.
  eexists. split; [vm_compute; reflexivity|]. repeat split.
Qed.

(** *** The segment that is published *)

(** C1. The claim: every published segment is the saved [moof] box followed
    by the [mdat] box alone, [moof_length + mdat_length] bytes, whatever the
    way the [mdat] bytes arrive.  The code on a chunk that holds a 12-byte
    [mdat] box followed by the next [moof] box, after a 12-byte [moof]: the
    branch [mdatLength < chunkLength] of [_findMdat] publishes the saved
    [moof] and the whole chunk, 36 bytes and not 24, and the bytes from
    offset 24 on are the next [moof] box. *)
Theorem C1_mdat_inside_chunk_publishes_whole_chunk :
  ∃ s published,
    after None [ftyp; moov; moof; mdat ++ moof] = Some s
    ∧ sent (world s) = [published]
    ∧ _int (Py.slice_to moof 4) = 12
    ∧ _int (Py.slice_to mdat 4) = 12
    ∧ published = moof ++ mdat ++ moof
    ∧ Py.len published = 36
    ∧ Py.slice_from published (12 + 12) = moof.
Proof.
  eexists; eexists.
  split; [vm_compute; reflexivity|].
  split; [reflexivity|].
  repeat split.
Qed.

(** *** The initialization fragment *)

(** C2. The claim: when the [moov] box ends inside its chunk, the
    initialization fragment is the saved [ftyp] and the first [moov_length]
    bytes of the chunk.  The code on a chunk that holds a 16-byte [moov] box
    followed by a [moof] box: [_findMoov] hands [self._ftyp + chunk] to
    [_parseMoov], so the fragment is 44 bytes long and ends with the [moof]
    box, which is forwarded to [_findMoof] as well. *)
Theorem C2_initialization_keeps_rest_of_chunk :
  ∃ s,
    after None [ftyp; moov ++ moof] = Some s
    ∧ _int (Py.slice_to (moov ++ moof) 4) = 16
    ∧ initialization s = Some (ftyp ++ moov ++ moof)
    ∧ initialization s ≠ Some (ftyp ++ Py.slice_to (moov ++ moof) 16)
    ∧ _moof (parser s) = Some moof.
Proof.
  eexists.
  split; [vm_compute; reflexivity|].
  repeat split. discriminate.
Qed.

(** *** Lookup of an HLS segment *)

(** C3. The claim: [get_hls_segment(s)] returns the bytes of the segment for
    every resident [s], absent otherwise, and never raises.  The code after
    one published segment, with [hlsBase = "test"]: the entry of sequence 0
    is resident, and [getHlsSegment(0)] raises [AttributeError], because
    the entries are dicts and the loop reads [self._hlsList[i].name]. *)
Theorem C3_getHlsSegment_raises_on_resident_entry :
  ∃ s h,
    after (Some hls_options) [ftyp; moov; moof; mdat] = Some s
    ∧ hls s = Some h
    ∧ e_sequence <$> _hlsList h = [0]
    ∧ sent (world s) = [moof ++ mdat]
    ∧ getHlsSegment s 0 = Raise (AttributeError "dict" "name").
Proof.
  eexists; eexists.
  split; [vm_compute; reflexivity|].
  split; [reflexivity|].
  repeat split.
Qed.

(** *** The [segment] property *)

(** C4. The claim: [segment] is [None] before the first segment and the
    bytes of the latest segment after each publication.  The code: the
    property reads [self._setSegment], a method of the class, so it is the
    bound method on a new instance and still after a segment was sent. *)
Theorem C4_segment_property_is_the_method :
  (∃ s0, __init__ None = Ok s0
         ∧ sent (world s0) = []
         ∧ segment s0 = VMethod "_setSegment")
  ∧ (∃ s, after None [ftyp; moov; moof; mdat] = Some s
          ∧ sent (world s) = [moof ++ mdat]
          ∧ _segment (out s) = Some (moof ++ mdat)
          ∧ segment s = VMethod "_setSegment").
Proof.
  split.
  - eexists. split; [reflexivity|]. split; reflexivity.
  - eexists. split; [vm_compute; reflexivity|]. repeat split.
Qed.

(** *** Sizes of the lists *)

(** C5. The claim: the buffer list size is the clamp of [bufferListSize]
    itself, whatever [hlsListSize] is.  The code with [hlsListSize = 5] and
    [bufferListSize = 3]: both sizes are 5. *)
Theorem C5_buffer_size_is_read_from_hlsListSize :
  ∃ s h b,
    __init__ (Some buffer_options) = Ok s
    ∧ hls s = Some h ∧ buf s = Some b
    ∧ buffer_options !! "bufferListSize" = Some (VInt 3)
    ∧ _hlsListSize h = 5
    ∧ _bufferListSize b = 5.
Proof.
  eexists; eexists; eexists.
  split; [vm_compute; reflexivity|].
  repeat split.
Qed.

(** *** The playlist *)

(** C6. The claim: the playlist holds, for each entry, a line
    [#EXTINF:<duration>], a newline, and the name of the entry on a line of
    its own; with [hlsBase = "test"], a list size of 3 and five segments
    of two seconds it names the media sequence 2, the target duration 2 and
    the entries test2, test3, test4.  The code in that scenario: the header
    lines and the three entries are there, and the text after the header is
    the single line [#EXTINF:2test2#EXTINF:2test3#EXTINF:2test4], with no
    newline between a duration and a name nor after a name. *)
Theorem C6_playlist_entries_have_no_newline :
  ∃ s h,
    after (Some hls_options) five_segments = Some s
    ∧ hls s = Some h
    ∧ e_name <$> _hlsList h = ["test2"; "test3"; "test4"]
    ∧ e_duration <$> _hlsList h = [2000 # 1000; 2000 # 1000; 2000 # 1000]%Q
    ∧ m3u8 s =
        Some ("#EXTM3U" +:+ Py.nl
              +:+ "#EXT-X-VERSION:7" +:+ Py.nl
              +:+ "#EXT-X-TARGETDURATION:2" +:+ Py.nl
              +:+ "#EXT-X-MEDIA-SEQUENCE:2" +:+ Py.nl
              +:+ "#EXT-X-MAP:URI=" +:+ Py.dquote +:+ "init-test.mp4"
              +:+ Py.dquote +:+ Py.nl
              +:+ "#EXTINF:2test2#EXTINF:2test3#EXTINF:2test4").
Proof.
  eexists; eexists.
  split; [vm_compute; reflexivity|].
  split; [reflexivity|].
  repeat split.
Qed.

(** *** Boxes of length zero *)

(** C7. The claim: in every [Find*] state a chunk whose length field reads
    zero is logged and dropped, the state stays, and nothing is produced;
    a zero [mdat] length never publishes a segment.  The code in
    [_findMdat], which has no test for zero (only [_findMoof] has one): the
    8-byte chunk [00 00 00 00 mdat], received after a [moof] box, takes the
    branch [mdatLength < chunkLength]; a segment made of the [moof] box and
    the chunk is sent and the handler becomes [_findMoof]. *)
Theorem C7_zero_length_mdat_publishes_a_segment :
  ∃ s1 s2,
    after None [ftyp; moov; moof] = Some s1
    ∧ _parseChunk (parser s1) = FindMdat
    ∧ sent (world s1) = []
    ∧ _int (Py.slice_to mdat0 4) = 0
    ∧ _transform clock mdat0 s1 = (Ok tt, s2)
    ∧ _parseChunk (parser s2) = FindMoof
    ∧ sent (world s2) = [moof ++ mdat0].
Proof.
  eexists; eexists.
  split; [vm_compute; reflexivity|].
  do 3 (split; [reflexivity|]).
  split; [vm_compute; reflexivity|].
  split; reflexivity.
Qed.

(** *** The timestamp before the first segment *)

(** C8. The claim: [timestamp] is [-1] until the first segment is
    published, also once the initialization fragment has been parsed.  The
    code after [ftyp] and a [moov] box that holds [avcC]: [_parseMoov] has
    stored the clock reading in [self._timestamp], and the property returns
    it although no segment was sent. *)
Theorem C8_timestamp_is_set_by_the_initialization :
  ∃ s0 s,
    __init__ None = Ok s0
    ∧ timestamp s0 = -1
    ∧ run clock [ftyp; moov] s0 = (Ok tt, s)
    ∧ sent (world s) = []
    ∧ _segment (out s) = None
    ∧ initialization s = Some (ftyp ++ moov)
    ∧ timestamp s = clock 0
    ∧ timestamp s ≠ -1.
Proof.
  eexists; eexists.
  split; [reflexivity|].
  split; [reflexivity|].
  split; [vm_compute; reflexivity|].
  repeat split. discriminate.
Qed.

(** *** Concatenation of the buffer *)

(** C9. When the initialization fragment exists and the buffer list is
    not empty, [bufferListConcat()] is the concatenation, in order, of the
    entries of the buffer list, and [bufferConcat()] is [initialization()]
    followed by [bufferListConcat()]. *)
Theorem C9_bufferConcat_is_initialization_then_buffer
    (s : State) (init : bytes) (b : Buf) :
  initialization s = Some init ->
  buf s = Some b ->
  _bufferList b ≠ [] ->
  bufferListConcat s = Some (concat (_bufferList b))
  ∧ bufferConcat s = Some (init ++ concat (_bufferList b))
  ∧ bufferConcat s = (fun rest => init ++ rest) <$> bufferListConcat s.
Proof.
  intros Hinit Hbuf Hne.
  assert (Hl : bufferListConcat s = Some (concat (_bufferList b))).
  { unfold bufferListConcat. rewrite Hbuf, (len_nonempty _ Hne).
    by rewrite _bsconcate_default. }
  assert (Hc : bufferConcat s = Some (init ++ concat (_bufferList b))).
  { unfold bufferConcat, initialization in *.
    rewrite Hinit, Hbuf, (len_nonempty _ Hne), _bsconcate_default.
    reflexivity. }
  split; [exact Hl|]. split; [exact Hc|].
  by rewrite Hl, Hc.
Qed.

Lemma C9_bufferConcat_witness :
  initialization buffered = Some (ftyp ++ moov)
  ∧ buf buffered = Some two_segments
  ∧ _bufferList two_segments ≠ []
  ∧ bufferListConcat buffered = Some (concat (_bufferList two_segments))
  ∧ bufferConcat buffered
      = Some ((ftyp ++ moov) ++ concat (_bufferList two_segments))
  ∧ bufferConcat buffered
      = (fun rest => (ftyp ++ moov) ++ rest) <$> bufferListConcat buffered.
Proof.
  split; [reflexivity|].
  split; [reflexivity|].
  split; [simpl; discriminate|].
  apply C9_bufferConcat_is_initialization_then_buffer.
  - reflexivity.
  - reflexivity.
  - simpl. discriminate.
Defined.

(** *** Options without [hlsListSize] *)

(** C10. An options dict that has the key ['bufferListSize'] and lacks the
    key ['hlsListSize'] makes the constructor raise [KeyError]: the block
    for ['bufferListSize'] reads [options['hlsListSize']]. *)
Theorem C10_bufferListSize_without_hlsListSize_raises
    (options : gmap string value) :
  is_Some (options !! "bufferListSize") ->
  options !! "hlsListSize" = None ->
  __init__ (Some options) = Raise (KeyError "hlsListSize").
Proof.
  intros [v Hv] Hh. unfold __init__.
  rewrite bool_decide_eq_false_2.
  - unfold init_buf, subscript. by rewrite Hv, Hh.
  - intros ->. by rewrite lookup_empty in Hv.
Qed.

Lemma C10_bufferListSize_without_hlsListSize_witness :
  is_Some (({[ "bufferListSize" := VInt 5 ]} : gmap string value)
             !! "bufferListSize")
  ∧ ({[ "bufferListSize" := VInt 5 ]} : gmap string value) !! "hlsListSize"
      = None
  ∧ __init__ (Some {[ "bufferListSize" := VInt 5 ]})
      = Raise (KeyError "hlsListSize").
Proof.
  split; [exists (VInt 5); reflexivity|].
  split; [reflexivity|].
  apply C10_bufferListSize_without_hlsListSize_raises.
  - exists (VInt 5); reflexivity.
  - reflexivity.
Defined.
